(** * Mule's C extension modules [um_packing] and [um_sstpert]

    A shallow embedding of the two Python extension modules
    - [um_packing/lib/um_packing/um_packing.c]  ([wgdos_unpack_py], [wgdos_pack_py])
    - [um_sstpert/lib/um_sstpert/um_sstpert.c]  ([sstpert_py])

    The functions are glue: they take Python arguments, normalise the byte
    order, call routines of the UM libraries and hand the result to Python.
    The library routines ([pio_byteswap], [read_wgdos_header],
    [xpnd_all_wrapper], [cmps_all_wrapper], [sstpert]) and the allocator are
    not part of these files; they are the fields of the record [externals]
    below and every general theorem quantifies over them. *)

From Stdlib Require Import ZArith List String Bool Lia PrimFloat.
From Stdlib Require Import Strings.Byte.
Import ListNotations.
Local Open Scope Z_scope.

(** ** Machine integers *)

(** [int64_t] arithmetic, with the two's complement wrap-around written out. *)
Definition wrap64 (z : Z) : Z := (z + 2 ^ 63) mod 2 ^ 64 - 2 ^ 63.

(** The cast [(size_t) z] of a 64-bit signed value. *)
Definition to_size_t (z : Z) : Z := z mod 2 ^ 64.

(** [sizeof(int64_t)] and [sizeof(double)]. *)
Definition sizeof_int64 : Z := 8.
Definition sizeof_double : Z := 8.

(** C's [/] on integers truncates towards zero. *)
Definition cdiv (a b : Z) : Z := Z.quot a b.

(** ** Python side *)

(** A numpy array as the C code sees it: [PyArray_DIMS] and [PyArray_DATA]. *)
Record PyArrayObject (A : Type) : Type := mkArray {
  PyArray_DIMS : list Z;
  PyArray_DATA : list A
}.
Arguments mkArray {A} _ _.
Arguments PyArray_DIMS {A} _.
Arguments PyArray_DATA {A} _.

(** What a call leaves in the Python error indicator when it returns [NULL]:
    either the [ValueError] the C code sets with [PyErr_SetString], or the
    exception the interpreter itself set when it could not build the result
    object (the C code then only passes the [NULL] on). *)
Inductive py_error : Type :=
| PyExc_ValueError (msg : string)
| PyExc_FromRuntime.

(** [enum endianness] of pio_byteswap.h. *)
Inductive endianness : Type := bigEndian | littleEndian.

Definition is_little (e : endianness) : bool :=
  match e with littleEndian => true | bigEndian => false end.

(** A C pointer returned by [calloc]: [NULL] or the identity of a block. *)
Definition ptr : Type := option nat.
Definition NULL : ptr := None.

(** ** The external routines *)

Record externals : Type := mkExternals {
  (** [get_machine_endianism()] *)
  get_machine_endianism : endianness;
  (** [pio_byteswap(array, len, word_len)]: status and the new contents of
      the memory at [array]. *)
  pio_byteswap : list byte -> Z -> Z -> Z * list byte;
  (** [read_wgdos_header(bytes, &accuracy, &cols, &rows)]: status, then
      accuracy, cols, rows. *)
  read_wgdos_header : list byte -> Z * (Z * Z * Z);
  (** [xpnd_all_wrapper(dataout, comp, &len_comp, &cols, &rows, &accuracy,
      &mdi, &status, err_msg)]: the new contents of [dataout], the status and
      the message.  The scalars are passed by reference because the routine
      is Fortran; they are inputs. *)
  xpnd_all_wrapper :
    list float -> list byte -> Z -> Z -> Z -> Z -> float ->
    list float * Z * string;
  (** [cmps_all_wrapper(field, comp, &len_comp, &cols, &rows, &accuracy, &mdi,
      &num_words, &status, err_msg)]: the new contents of [comp], the number
      of 32-bit words, the status and the message.  The routine also sees
      whether [comp] is [NULL]. *)
  cmps_all_wrapper :
    list float -> ptr -> list byte -> Z -> Z -> Z -> Z -> float ->
    list byte * Z * Z * string;
  (** [sstpert(&factor, dt, &rows, &cols, fieldclim, dataout)]: the new
      contents of [dataout]. *)
  sstpert : float -> list Z -> Z -> Z -> list float -> list float -> list float;
  (** whether [calloc(nmemb, size)] finds memory *)
  calloc_finds_memory : Z -> Z -> bool;
  (** whether [PyArray_SimpleNewFromData(2, dims, NPY_DOUBLE, data)]
      returns an array *)
  PyArray_SimpleNewFromData_ok : list Z -> bool;
  (** whether [PyString_FromStringAndSize(v, len)] finds memory for the
      string *)
  PyString_finds_memory : Z -> bool
}.

(** ** State of a call *)

(** The calls the functions make, in order, with what decides the control
    flow. *)
Inductive event : Type :=
| Call_pio_byteswap (array : list byte) (len word_len status : Z)
| Call_read_wgdos_header (bytes : list byte) (status : Z)
| Call_calloc (nmemb size : Z) (p : ptr)
| Call_xpnd_all_wrapper (comp : list byte) (status : Z)
| Call_cmps_all_wrapper (comp : ptr) (packed : list byte) (num_words status : Z)
| Call_sstpert
| Call_free (p : ptr)
| Call_PyArray_SimpleNewFromData (dims : list Z) (ok : bool)
| Call_PyArray_ENABLEFLAGS_OWNDATA (p : ptr)
| Call_PyString_FromStringAndSize (len : Z) (ok : bool).

Record world : Type := mkWorld {
  (** the bytes of the caller's string object, the memory [bytes_in] points
      to *)
  caller_bytes : list byte;
  (** blocks obtained from [calloc], not freed and not handed to numpy *)
  live : list nat;
  (** next block identity *)
  fresh : nat;
  (** calls made so far, oldest first *)
  trace : list event
}.

Definition initial_world (bytes : list byte) : world :=
  mkWorld bytes [] 0 [].

(** How a call ends: with a Python object, with [NULL] and an exception set,
    or in an access the C language does not define (outside an array or a
    buffer). *)
Inductive result (A : Type) : Type :=
| Return (a : A)
| Raise (e : py_error)
| Undefined.
Arguments Return {A} _.
Arguments Raise {A} _.
Arguments Undefined {A}.

Definition M (A : Type) : Type := world -> result A * world.

Definition ret {A} (a : A) : M A := fun w => (Return a, w).

Definition bind {A B} (c : M A) (k : A -> M B) : M B :=
  fun w =>
    match c w with
    | (Return a, w') => k a w'
    | (Raise e, w') => (Raise e, w')
    | (Undefined, w') => (Undefined, w')
    end.

Definition raise {A} (e : py_error) : M A := fun w => (Raise e, w).
Definition undefined {A} : M A := fun w => (Undefined, w).

Declare Scope c_scope.
Delimit Scope c_scope with c.
Notation "x <- c ;; k" := (bind c (fun x => k))
  (at level 100, c at next level, right associativity) : c_scope.
Notation "c ;; k" := (bind c (fun _ => k))
  (at level 100, right associativity) : c_scope.
Local Open Scope c_scope.

Definition emit (e : event) : M unit :=
  fun w => (Return tt,
            mkWorld (caller_bytes w) (live w) (fresh w) (trace w ++ [e])).

Definition read_caller_bytes : M (list byte) :=
  fun w => (Return (caller_bytes w), w).

Definition write_caller_bytes (b : list byte) : M unit :=
  fun w => (Return tt, mkWorld b (live w) (fresh w) (trace w)).

Definition remove_block (p : ptr) (l : list nat) : list nat :=
  match p with
  | None => l
  | Some b => filter (fun x => negb (Nat.eqb x b)) l
  end.

Section Binding.

Variable ext : externals.

(** [calloc(nmemb, size)]: the pointer and the zero-filled block, seen as
    [cells] values of [A] ([nmemb] doubles, or [nmemb * size] bytes). *)
Definition calloc {A} (zero : A) (cells : Z) (nmemb size : Z)
  : M (ptr * list A) :=
  fun w =>
    if calloc_finds_memory ext nmemb size then
      (Return (Some (fresh w), repeat zero (Z.to_nat cells)),
       mkWorld (caller_bytes w) (fresh w :: live w) (S (fresh w))
               (trace w ++ [Call_calloc nmemb size (Some (fresh w))]))
    else
      (Return (NULL, []),
       mkWorld (caller_bytes w) (live w) (fresh w)
               (trace w ++ [Call_calloc nmemb size NULL])).

(** [free(p)]; [free(NULL)] does nothing. *)
Definition free (p : ptr) : M unit :=
  fun w => (Return tt,
            mkWorld (caller_bytes w) (remove_block p (live w)) (fresh w)
                    (trace w ++ [Call_free p])).

(** [PyArray_ENABLEFLAGS(arr, NPY_ARRAY_OWNDATA)]: the array now owns the
    block. *)
Definition enable_owndata (p : ptr) : M unit :=
  fun w => (Return tt,
            mkWorld (caller_bytes w) (remove_block p (live w)) (fresh w)
                    (trace w ++ [Call_PyArray_ENABLEFLAGS_OWNDATA p])).

(** [dims[i]]; reading past the dimensions of the array is not defined. *)
Definition dim (dims : list Z) (i : nat) : M Z :=
  match nth_error dims i with
  | Some d => ret d
  | None => undefined
  end.

(** The call [pio_byteswap(array, len, sizeof(int64_t))] on memory holding
    [array]; the routine walks [len] words, which must lie in the buffer. *)
Definition call_pio_byteswap (array : list byte) (len : Z) : M (Z * list byte) :=
  if Z.of_nat (List.length array) <? len * sizeof_int64 then undefined
  else
    let '(status, array') := pio_byteswap ext array len sizeof_int64 in
    emit (Call_pio_byteswap array len sizeof_int64 status) ;;
    ret (status, array').

(** [PyString_FromStringAndSize(v, len)]: a new string holding a copy of the
    first [len] bytes at [v]; [NULL] for a negative [len] or without
    memory. *)
Definition PyString_FromStringAndSize (v : list byte) (len : Z)
  : M (option (list byte)) :=
  if len <? 0 then
    emit (Call_PyString_FromStringAndSize len false) ;; ret None
  else if Z.of_nat (List.length v) <? len then undefined
  else if PyString_finds_memory ext len then
    emit (Call_PyString_FromStringAndSize len true) ;;
    ret (Some (firstn (Z.to_nat len) v))
  else
    emit (Call_PyString_FromStringAndSize len false) ;; ret None.

(** *** um_packing.c, [wgdos_unpack_py]

    The arguments are those [PyArg_ParseTuple(args, "s#d", ...)] delivers:
    [bytes_in] is the memory of the caller's string ([caller_bytes]),
    [n_bytes] its length. *)
Definition wgdos_unpack_py (mdi : float) : M (PyArrayObject float) :=
  bytes_in <- read_caller_bytes ;;
  let n_bytes := Z.of_nat (List.length bytes_in) in
  (* Perform a byte swap on the byte-array, if it looks like it is needed *)
  (if is_little (get_machine_endianism ext) then
     r <- call_pio_byteswap bytes_in (cdiv n_bytes sizeof_int64) ;;
     write_caller_bytes (snd r) ;;
     if negb (fst r =? 0) then
       raise (PyExc_ValueError "Problem in byte-swapping")
     else ret tt
   else ret tt) ;;
  (* Now extract the accuracy, number of rows and number of columns *)
  bytes_in <- read_caller_bytes ;;
  let '(status, (accuracy, cols, rows)) := read_wgdos_header ext bytes_in in
  emit (Call_read_wgdos_header bytes_in status) ;;
  if negb (status =? 0) then
    raise (PyExc_ValueError "Problem reading WGDOS header")
  else
  (* Allocate space to hold the unpacked field *)
  let nmemb := to_size_t (wrap64 (rows * cols)) in
  d <- calloc 0%float nmemb nmemb sizeof_double ;;
  let '(dataout_ptr, dataout) := d in
  match dataout_ptr with
  | None => raise (PyExc_ValueError "Unable to allocate memory for unpacking")
  | Some _ =>
    (* Call the WGDOS unpacking code *)
    let len_comp := cdiv n_bytes sizeof_double in
    let '(dataout, status, err_msg) :=
      xpnd_all_wrapper ext dataout bytes_in len_comp cols rows accuracy mdi in
    emit (Call_xpnd_all_wrapper bytes_in status) ;;
    if negb (status =? 0) then
      free dataout_ptr ;;
      raise (PyExc_ValueError err_msg)
    else
    (* Now form a numpy array object to return to python *)
    let dims := [rows; cols] in
    let ok := PyArray_SimpleNewFromData_ok ext dims in
    emit (Call_PyArray_SimpleNewFromData dims ok) ;;
    if negb ok then
      free dataout_ptr ;;
      raise (PyExc_ValueError "Failed to make numpy array")
    else
    (* Give python/numpy ownership of the memory storing the return array *)
    enable_owndata dataout_ptr ;;
    ret (mkArray dims dataout)
  end.

(** *** um_packing.c, [wgdos_pack_py]

    The arguments are those [PyArg_ParseTuple(args, "Odl", ...)] delivers.
    The result of [calloc] is not compared with [NULL]. *)
Definition wgdos_pack_py (datain : PyArrayObject float) (mdi : float)
    (accuracy : Z) : M (list byte) :=
  let dims := PyArray_DIMS datain in
  rows <- dim dims 0 ;;
  cols <- dim dims 1 ;;
  let field := PyArray_DATA datain in
  (* Allocate space for return value *)
  let len_comp := wrap64 (rows * cols) in
  let nmemb := to_size_t len_comp in
  c <- calloc Byte.x00 (nmemb * sizeof_int64) nmemb sizeof_int64 ;;
  let '(comp_field_ptr, comp_field) := c in
  let '(comp_field, num_words, status, err_msg) :=
    cmps_all_wrapper ext field comp_field_ptr comp_field
                     len_comp cols rows accuracy mdi in
  emit (Call_cmps_all_wrapper comp_field_ptr comp_field num_words status) ;;
  if negb (status =? 0) then
    free comp_field_ptr ;;
    raise (PyExc_ValueError err_msg)
  else
  (* Round number of words to sector size *)
  let num_words := cdiv (wrap64 (num_words + 1)) 2 in
  let out_len := wrap64 (num_words * sizeof_double) in
  (* Byteswap on the way out, if needed *)
  ptr_char <-
    (if is_little (get_machine_endianism ext) then
       r <- call_pio_byteswap comp_field num_words ;;
       if negb (fst r =? 0) then
         raise (PyExc_ValueError "Problem in byte-swapping")
       else ret (snd r)
     else ret comp_field) ;;
  (* Form a python string object to return to python *)
  bytes_out <- PyString_FromStringAndSize ptr_char out_len ;;
  (* Free the memory used by the integer array *)
  free comp_field_ptr ;;
  match bytes_out with
  | Some s => ret s
  | None => raise PyExc_FromRuntime
  end.

End Binding.

Section Sstpert.

Variable ext : externals.

(** *** um_sstpert.c, [sstpert_py]

    The arguments are those [PyArg_ParseTuple(args, "dOO", ...)] delivers. *)
Definition sstpert_py (factor : float) (dt : PyArrayObject Z)
    (fieldclim : PyArrayObject float) : M (PyArrayObject float) :=
  (* Get dimensions of input fieldclim array *)
  let dims_clim := PyArray_DIMS fieldclim in
  rows <- dim dims_clim 0 ;;
  cols <- dim dims_clim 1 ;;
  months <- dim dims_clim 2 ;;
  let field := PyArray_DATA fieldclim in
  if negb (months =? 12) then
    raise (PyExc_ValueError "Climatology must have a final dimension of 12")
  else
  (* Attach to the dt array *)
  len_dt <- dim (PyArray_DIMS dt) 0 ;;
  let dt_data := PyArray_DATA dt in
  if negb (len_dt =? 8) then
    raise (PyExc_ValueError "Date array must have 8 elements")
  else
  (* Allocate space for return value *)
  let len_comp := wrap64 (rows * cols) in
  let nmemb := to_size_t len_comp in
  d <- calloc ext 0%float nmemb nmemb sizeof_double ;;
  let '(dataout_ptr, dataout) := d in
  match dataout_ptr with
  | None => raise (PyExc_ValueError "Unable to allocate memory for sstpert")
  | Some _ =>
    let dataout := sstpert ext factor dt_data rows cols field dataout in
    emit Call_sstpert ;;
    (* Now form a numpy array object to return to python *)
    let dims_out := [rows; cols] in
    let ok := PyArray_SimpleNewFromData_ok ext dims_out in
    emit (Call_PyArray_SimpleNewFromData dims_out ok) ;;
    if negb ok then
      free dataout_ptr ;;
      raise (PyExc_ValueError "Failed to make numpy array")
    else
    (* Give python/numpy ownership of the memory storing the return array *)
    enable_owndata dataout_ptr ;;
    ret (mkArray dims_out dataout)
  end.

End Sstpert.

(** ** Running one call *)

(** A call of [um_packing.wgdos_unpack(bytes_in, mdi)]. *)
Definition run_unpack (ext : externals) (bytes_in : list byte) (mdi : float)
  : result (PyArrayObject float) * world :=
  wgdos_unpack_py ext mdi (initial_world bytes_in).

(** A call of [um_packing.wgdos_pack(field_in, mdi, accuracy)]. *)
Definition run_pack (ext : externals) (datain : PyArrayObject float)
    (mdi : float) (accuracy : Z) : result (list byte) * world :=
  wgdos_pack_py ext datain mdi accuracy (initial_world []).

(** A call of [um_sstpert.sstpert(factor, dt, climatology)]. *)
Definition run_sstpert (ext : externals) (factor : float)
    (dt : PyArrayObject Z) (fieldclim : PyArrayObject float)
  : result (PyArrayObject float) * world :=
  sstpert_py ext factor dt fieldclim (initial_world []).

(** What is in the caller's buffer when the header is read: the buffer as
    passed on a big-endian host, as [pio_byteswap] left it on a little-endian
    one. *)
Definition normalized (ext : externals) (bytes_in : list byte) : list byte :=
  if is_little (get_machine_endianism ext) then
    snd (pio_byteswap ext bytes_in
           (cdiv (Z.of_nat (List.length bytes_in)) sizeof_int64) sizeof_int64)
  else bytes_in.

(** ** The byte swap *)

(** Modelled from the spec: the body of [pio_byteswap] is not in these files.
    Section 4.1 of the specification: the buffer is [N] words of [W] bytes and
    the bytes of each word are reversed in place; what follows the [N] words
    is not touched. *)
Fixpoint byteswap_words (W N : nat) (buf : list byte) : list byte :=
  match N with
  | O => buf
  | S n => rev (firstn W buf) ++ byteswap_words W n (skipn W buf)
  end.


(** [pio_byteswap] swaps as section 4.1 says, whatever status it reports. *)
Definition swaps_words (ext : externals) : Prop :=
  forall buf len,
    snd (pio_byteswap ext buf len sizeof_int64)
    = byteswap_words 8 (Z.to_nat len) buf.

(** ** Stand-ins for the external routines

    Used to run the functions on concrete arguments.  The byte swap is
    [byteswap_words]; every other routine answers with the given constants
    and leaves its output buffer as it finds it. *)
Definition stand_in (e : endianness) (swap_status : Z)
    (header : Z * (Z * Z * Z)) (codec_status num_words : Z)
    (memory : bool) : externals :=
  {| get_machine_endianism := e;
     pio_byteswap := fun buf len word_len =>
       (swap_status, byteswap_words (Z.to_nat word_len) (Z.to_nat len) buf);
     read_wgdos_header := fun _ => header;
     xpnd_all_wrapper := fun dataout _ _ _ _ _ _ =>
       (dataout, codec_status, "xpnd_all_wrapper failed"%string);
     cmps_all_wrapper := fun _ _ comp _ _ _ _ _ =>
       (comp, num_words, codec_status, "cmps_all_wrapper failed"%string);
     sstpert := fun _ _ _ _ _ dataout => dataout;
     calloc_finds_memory := fun _ _ => memory;
     PyArray_SimpleNewFromData_ok := fun _ => true;
     PyString_finds_memory := fun _ => true |}.

(** ** [get_um_version_py] *)

(** C's [strlen] on a [char] array holding [s]: the number of bytes before
    the first NUL; [None] when the array holds no NUL, where the scan runs
    past its end. *)
Fixpoint strlen (s : list byte) : option nat :=
  match s with
  | [] => None
  | b :: rest =>
      if Byte.eqb b x00 then Some O else option_map S (strlen rest)
  end.

(** *** um_packing.c, [get_um_version_py]

    [get_um_version] is the library routine: from what the local array
    [char version[8]] holds on entry (it is not initialised) to what it holds
    after the call. *)
Definition get_um_version_py (ext : externals)
    (get_um_version : list byte -> list byte) (version : list byte)
  : M (list byte) :=
  let version := get_um_version version in
  match strlen version with
  | None => undefined
  | Some n =>
      version_out <-
        PyString_FromStringAndSize ext version (Z.of_nat n) ;;
      match version_out with
      | Some s => ret s
      | None => raise PyExc_FromRuntime
      end
  end.

(** ** Argument parsing *)

(** The first statement of [wgdos_unpack_py] (line 81) and of [sstpert_py]
    (line 71): [PyArg_ParseTuple] either delivers the C values, here [Some],
    or refuses the arguments, here [None], and the function then returns
    [NULL] at once with the exception the interpreter has set. *)
Definition wgdos_unpack_py_call (ext : externals) (args : option float)
  : M (PyArrayObject float) :=
  match args with
  | None => raise PyExc_FromRuntime
  | Some mdi => wgdos_unpack_py ext mdi
  end.

Definition sstpert_py_call (ext : externals)
    (args : option (float * PyArrayObject Z * PyArrayObject float))
  : M (PyArrayObject float) :=
  match args with
  | None => raise PyExc_FromRuntime
  | Some (factor, dt, fieldclim) => sstpert_py ext factor dt fieldclim
  end.

(** ** Releases *)

(** The calls that end a block's life in the function: [free], and the
    hand-over to the numpy array. *)
Definition is_release (e : event) : bool :=
  match e with
  | Call_free _ => true
  | Call_PyArray_ENABLEFLAGS_OWNDATA _ => true
  | _ => false
  end.

Definition is_pio_byteswap (e : event) : bool :=
  match e with
  | Call_pio_byteswap _ _ _ _ => true
  | _ => false
  end.

(** A trace in which at most one call releases a block, and the block it
    releases is one a [calloc] of the trace returned. *)
Definition released_once (t : list event) : Prop :=
  (List.length (filter is_release t) <= 1)%nat
  /\ forall e, In e (filter is_release t) ->
       exists nmemb size p,
         (e = Call_free p \/ e = Call_PyArray_ENABLEFLAGS_OWNDATA p)
         /\ In (Call_calloc nmemb size p) t.

(** ** Proof tools *)

Lemma wrap64_mod8 z : wrap64 (z * 8) mod 8 = 0.
Proof.
  unfold wrap64.
  rewrite Zminus_mod.
  assert (H : ((z * 8 + 2 ^ 63) mod 2 ^ 64) mod 8 = 0).
  { rewrite Z.mod_mod_divide by (exists (2 ^ 61); reflexivity).
    replace (z * 8 + 2 ^ 63) with (0 + (z + 2 ^ 60) * 8) by lia.
    rewrite Z_mod_plus_full. reflexivity. }
  rewrite H. reflexivity.
Qed.

Lemma wrap64_small z : - 2 ^ 63 <= z < 2 ^ 63 -> wrap64 z = z.
Proof.
  intros H. unfold wrap64. rewrite Z.mod_small; lia.
Qed.

(** Unfolds the steps of the state and error monad. *)
Ltac step :=
  unfold dim, call_pio_byteswap, PyString_FromStringAndSize, calloc, free,
         enable_owndata, emit, read_caller_bytes, write_caller_bytes,
         bind, ret, raise, undefined in *;
  cbn [fst snd caller_bytes live fresh trace nth_error initial_world
       PyArray_DIMS PyArray_DATA] in *.

(** Case analysis on the next test of the C code. *)
Ltac split_if :=
  match goal with
  | |- context [is_little (get_machine_endianism ?e)] =>
      destruct (get_machine_endianism e) eqn:?; cbn [is_little]
  | |- context [if Z.ltb ?a ?b then _ else _] => destruct (Z.ltb_spec a b)
  | |- context [if negb (Z.eqb ?a ?b) then _ else _] =>
      destruct (Z.eqb_spec a b); cbn [negb]
  | |- context [pio_byteswap ?e ?b ?l ?s] =>
      let st := fresh "swap_status" in
      let sw := fresh "swapped" in
      destruct (pio_byteswap e b l s) as [st sw] eqn:?
  | |- context [read_wgdos_header ?e ?b] =>
      let st := fresh "header_status" in
      let a := fresh "accuracy" in
      let c := fresh "cols" in
      let r := fresh "rows" in
      destruct (read_wgdos_header e b) as [st [[a c] r]] eqn:?
  | |- context [xpnd_all_wrapper ?e ?d ?b ?l ?c ?r ?a ?m] =>
      let st := fresh "xpnd_status" in
      let d' := fresh "unpacked" in
      let msg := fresh "err_msg" in
      destruct (xpnd_all_wrapper e d b l c r a m) as [[d' st] msg] eqn:?
  | |- context [cmps_all_wrapper ?e ?f ?p ?c ?l ?co ?r ?a ?m] =>
      let st := fresh "cmps_status" in
      let c' := fresh "packed" in
      let nw := fresh "num_words" in
      let msg := fresh "err_msg" in
      destruct (cmps_all_wrapper e f p c l co r a m)
        as [[[c' nw] st] msg] eqn:?
  | |- context [if ?b then _ else _] => destruct b eqn:?
  end.

(** ** [sstpert_py] *)

(** C9 (as stated, fails). [sstpert_py] does not count the elements of the
    descriptor: it compares the first dimension with 8.  A descriptor of
    shape 8 x 2, with 16 elements, is accepted and a grid is returned; a
    descriptor of shape 2 x 4, with 8 elements, is refused. *)
Lemma descriptor_elements_not_counted :
  let ext := stand_in littleEndian 0 (0, (0, 0, 0)) 0 0 true in
  let clim := mkArray [1; 2; 12] (repeat 280%float 24) in
  let sixteen := mkArray [8; 2]
                   [2018; 0; 6; 0; 1; 0; 0; 0; 0; 0; 0; 0; 3; 0; 103; 0] in
  let eight := mkArray [2; 4] [2018; 6; 1; 0; 0; 0; 3; 103] in
  List.length (PyArray_DATA sixteen) = 16%nat
  /\ fst (run_sstpert ext 0.5%float sixteen clim)
     = Return (mkArray [1; 2] [0%float; 0%float])
  /\ List.length (PyArray_DATA eight) = 8%nat
  /\ fst (run_sstpert ext 0.5%float eight clim)
     = Raise (PyExc_ValueError "Date array must have 8 elements").
Proof.
  repeat split; vm_compute; reflexivity.
Qed.

(** C9 (amended). Called with a climatology whose first three dimensions are
    [r], [c], [m] and a descriptor whose first dimension is [n], whatever
    further dimensions either array has, [sstpert_py] raises [ValueError]
    and returns no grid, before it allocates anything, when [m] is not 12 or
    [n] is not 8.  A grid it returns has the shape [r; c] of the
    climatology's first two dimensions and holds what [sstpert] wrote into a
    zero-filled block of [(size_t)(r * c)] cells, given the factor, the data
    of the descriptor, [r], [c] and the data of the climatology; and with
    [m = 12] and [n = 8] it does return that grid once the output block and
    the array object are obtained. *)
Theorem sstpert_py_checks_and_shape
    (ext : externals) (factor : float) (dt : PyArrayObject Z)
    (fieldclim : PyArrayObject float) (r c m n : Z) (rest rest' : list Z) :
  PyArray_DIMS fieldclim = r :: c :: m :: rest ->
  PyArray_DIMS dt = n :: rest' ->
  let grid :=
    mkArray [r; c]
      (sstpert ext factor (PyArray_DATA dt) r c (PyArray_DATA fieldclim)
         (repeat 0%float (Z.to_nat (to_size_t (wrap64 (r * c)))))) in
  (m <> 12 ->
     run_sstpert ext factor dt fieldclim
     = (Raise (PyExc_ValueError "Climatology must have a final dimension of 12"),
        initial_world []))
  /\ (m = 12 -> n <> 8 ->
     run_sstpert ext factor dt fieldclim
     = (Raise (PyExc_ValueError "Date array must have 8 elements"),
        initial_world []))
  /\ (forall arr,
        fst (run_sstpert ext factor dt fieldclim) = Return arr ->
        m = 12 /\ n = 8 /\ arr = grid)
  /\ (m = 12 -> n = 8 ->
      calloc_finds_memory ext (to_size_t (wrap64 (r * c))) sizeof_double = true ->
      PyArray_SimpleNewFromData_ok ext [r; c] = true ->
      fst (run_sstpert ext factor dt fieldclim) = Return grid
      /\ live (snd (run_sstpert ext factor dt fieldclim)) = []).
Proof.
  intros Hclim Hdt grid. subst grid.
  unfold run_sstpert, sstpert_py. rewrite Hclim, Hdt. step.
  destruct (Z.eqb_spec m 12) as [Hm | Hm]; cbn [negb].
  2: { repeat split; intros; solve [reflexivity | contradiction | discriminate]. }
  destruct (Z.eqb_spec n 8) as [Hn | Hn]; cbn [negb].
  2: { repeat split; intros; solve [reflexivity | contradiction | discriminate]. }
  split; [intros; contradiction |]. split; [intros; contradiction |].
  destruct (calloc_finds_memory ext (to_size_t (wrap64 (r * c))) sizeof_double)
    eqn:Hmem; step.
  2: { split; intros; discriminate. }
  destruct (PyArray_SimpleNewFromData_ok ext [r; c]) eqn:Hok; step.
  2: { split; intros; discriminate. }
  split.
  - intros arr H. inversion H; subst. auto.
  - intros _ _ _ _. split; reflexivity.
Qed.

Lemma sstpert_py_checks_and_shape_witness :
  let ext := stand_in littleEndian 0 (0, (0, 0, 0)) 0 0 true in
  let dt := mkArray [8; 2]
              [2018; 0; 6; 0; 1; 0; 0; 0; 0; 0; 0; 0; 3; 0; 103; 0] in
  let clim := mkArray [1; 2; 12] (repeat 280%float 24) in
  PyArray_DIMS clim = [1; 2; 12] /\ PyArray_DIMS dt = [8; 2]
  /\ fst (run_sstpert ext 0.5%float dt clim)
     = Return (mkArray [1; 2]
                 (sstpert ext 0.5%float (PyArray_DATA dt) 1 2
                    (PyArray_DATA clim)
                    (repeat 0%float (Z.to_nat (to_size_t (wrap64 (1 * 2)))))))
  /\ live (snd (run_sstpert ext 0.5%float dt clim)) = [].
Proof.
  intros ext dt clim.
  split; [reflexivity |]. split; [reflexivity |].
  destruct (sstpert_py_checks_and_shape ext 0.5%float dt clim 1 2 12 8
              [] [2] eq_refl eq_refl) as (_ & _ & _ & H).
  exact (H eq_refl eq_refl eq_refl eq_refl).
Defined.

(** ** [wgdos_pack_py]: the length of the packed stream *)

Lemma firstn_length_Z {A} (l : list A) (n : Z) :
  0 <= n <= Z.of_nat (List.length l) ->
  Z.of_nat (List.length (firstn (Z.to_nat n) l)) = n.
Proof.
  intros H. rewrite length_firstn. lia.
Qed.

Lemma padded_length nw :
  0 <= nw < 2 ^ 60 ->
  wrap64 (cdiv (wrap64 (nw + 1)) 2 * sizeof_double) = 4 * nw + 4 * (nw mod 2).
Proof.
  intros H. unfold cdiv, sizeof_double.
  rewrite (wrap64_small (nw + 1)) by lia.
  rewrite Z.quot_div_nonneg by lia.
  assert (Hd : nw + 1 = 2 * ((nw + 1) / 2) + (nw + 1) mod 2)
    by (apply Z.div_mod; lia).
  assert (Hm : (nw + 1) mod 2 = 1 - nw mod 2).
  { rewrite Z.add_mod by lia.
    destruct (Z.mod_pos_bound nw 2 ltac:(lia)) as [? ?].
    assert (Hc : nw mod 2 = 0 \/ nw mod 2 = 1) by lia.
    destruct Hc as [-> | ->]; reflexivity. }
  assert (Hq : 0 <= (nw + 1) / 2 < 2 ^ 60).
  { split; [apply Z.div_pos; lia |].
    apply Z.div_lt_upper_bound; lia. }
  rewrite wrap64_small by lia. lia.
Qed.

(** C7. The string a successful [wgdos_pack_py] returns has a length that is
    a multiple of 8: it is [8 * ((num_words + 1) / 2)] in 64-bit arithmetic,
    where [num_words] is the count of 32-bit words the packing routine
    reported; for a count in range that is [4 * num_words] bytes, plus 4
    bytes of padding when the count is odd. *)
Theorem wgdos_pack_py_length_whole_words
    (ext : externals) (datain : PyArrayObject float) (mdi : float)
    (accuracy : Z) (s : list byte) (w' : world) :
  run_pack ext datain mdi accuracy = (Return s, w') ->
  Z.of_nat (List.length s) mod 8 = 0
  /\ exists p packed nw,
       In (Call_cmps_all_wrapper p packed nw 0) (trace w')
       /\ Z.of_nat (List.length s)
          = wrap64 (cdiv (wrap64 (nw + 1)) 2 * sizeof_double)
       /\ (0 <= nw < 2 ^ 60 ->
           Z.of_nat (List.length s) = 4 * nw + 4 * (nw mod 2)).
Proof.
  unfold run_pack, wgdos_pack_py.
  destruct (PyArray_DIMS datain) as [| rows [| cols rest]]; step;
    try discriminate.
  set (nmemb := to_size_t (wrap64 (rows * cols))).
  destruct (calloc_finds_memory ext nmemb sizeof_int64); step.
  all: repeat (split_if; step; try discriminate).
  all: intros Hret; inversion Hret; subst s w'; clear Hret; step.
  all: rewrite firstn_length_Z by lia.
  all: split; [apply wrap64_mod8 |].
  all: subst; eexists _, _, _; split;
    [ cbn [In]; right; left; reflexivity
    | split; [reflexivity | apply padded_length] ].
Qed.

Lemma wgdos_pack_py_length_whole_words_witness :
  let ext := stand_in littleEndian 0 (0, (0, 0, 0)) 0 3 true in
  let datain := mkArray [1; 2] [1.5%float; 2.5%float] in
  let call := run_pack ext datain (-9999)%float 0 in
  call = (Return (repeat x00 16), snd call)
  /\ Z.of_nat (List.length (repeat x00 16)) mod 8 = 0
  /\ exists p packed nw,
       In (Call_cmps_all_wrapper p packed nw 0) (trace (snd call))
       /\ Z.of_nat (List.length (repeat x00 16))
          = wrap64 (cdiv (wrap64 (nw + 1)) 2 * sizeof_double)
       /\ (0 <= nw < 2 ^ 60 ->
           Z.of_nat (List.length (repeat x00 16)) = 4 * nw + 4 * (nw mod 2)).
Proof.
  intros ext datain call.
  split; [vm_compute; reflexivity |].
  apply (wgdos_pack_py_length_whole_words ext datain (-9999)%float 0
           (repeat x00 16) (snd call)).
  vm_compute. reflexivity.
Defined.

(** ** Swapping words *)

Section SwapTwice.

Variable W : nat.

Lemma byteswap_words_length (N : nat) (buf : list byte) :
  List.length (byteswap_words W N buf) = List.length buf.
Proof.
  revert buf. induction N as [| n IH]; intros buf; cbn; [reflexivity |].
  rewrite length_app, length_rev, IH, <- length_app, firstn_skipn.
  reflexivity.
Qed.

Lemma firstn_app_exact {A} (n : nat) (a b : list A) :
  List.length a = n -> firstn n (a ++ b) = a.
Proof.
  intros <-. rewrite firstn_app, Nat.sub_diag, firstn_all. cbn.
  apply app_nil_r.
Qed.

Lemma skipn_app_exact {A} (n : nat) (a b : list A) :
  List.length a = n -> skipn n (a ++ b) = b.
Proof.
  intros <-. rewrite skipn_app, Nat.sub_diag, skipn_all. reflexivity.
Qed.

Lemma split_first_word (N : nat) (buf : list byte) :
  List.length buf = (W * S N)%nat ->
  exists a b,
    buf = a ++ b /\ List.length a = W /\ List.length b = (W * N)%nat.
Proof.
  intros Hlen. exists (firstn W buf), (skipn W buf).
  rewrite firstn_skipn, length_firstn, length_skipn.
  repeat split; nia.
Qed.

(** The swap of [N] words does not look past them. *)
Lemma byteswap_words_app (N : nat) (pre post : list byte) :
  List.length pre = (W * N)%nat ->
  byteswap_words W N (pre ++ post) = byteswap_words W N pre ++ post.
Proof.
  revert pre. induction N as [| n IH]; intros pre Hlen.
  - rewrite Nat.mul_0_r in Hlen. apply length_zero_iff_nil in Hlen.
    subst pre. reflexivity.
  - destruct (split_first_word n pre Hlen) as (a & b & -> & Ha & Hb).
    cbn. rewrite <- app_assoc.
    rewrite !(firstn_app_exact W a) by exact Ha.
    rewrite !(skipn_app_exact W a) by exact Ha.
    rewrite IH by exact Hb. rewrite app_assoc. reflexivity.
Qed.

(** Swapping twice gives the buffer back. *)
Lemma byteswap_words_twice (N : nat) (buf : list byte) :
  List.length buf = (W * N)%nat ->
  byteswap_words W N (byteswap_words W N buf) = buf.
Proof.
  revert buf. induction N as [| n IH]; intros buf Hlen; [reflexivity |].
  destruct (split_first_word n buf Hlen) as (a & b & -> & Ha & Hb).
  cbn.
  rewrite (firstn_app_exact W a) by exact Ha.
  rewrite (skipn_app_exact W a) by exact Ha.
  rewrite (firstn_app_exact W (rev a))
    by (rewrite length_rev; exact Ha).
  rewrite (skipn_app_exact W (rev a))
    by (rewrite length_rev; exact Ha).
  rewrite rev_involutive, IH by exact Hb. reflexivity.
Qed.

End SwapTwice.

(** The swap of [N] words leaves what follows them as it was. *)
Lemma byteswap_words_tail (W N : nat) (buf : list byte) :
  (W * N <= List.length buf)%nat ->
  skipn (W * N) (byteswap_words W N buf) = skipn (W * N) buf.
Proof.
  intros Hle.
  assert (Hpre : List.length (firstn (W * N) buf) = (W * N)%nat)
    by (rewrite length_firstn; lia).
  rewrite <- (firstn_skipn (W * N) buf) at 1.
  rewrite (byteswap_words_app W N _ _ Hpre).
  apply skipn_app_exact.
  rewrite byteswap_words_length. exact Hpre.
Qed.

Lemma stand_in_swaps_words e st h cs nw m :
  swaps_words (stand_in e st h cs nw m).
Proof. intros buf len. reflexivity. Qed.

(** ** Order of the steps *)

Lemma firstn_prefix_self {A} (n : nat) (l : list A) :
  firstn (List.length (firstn n l)) l = firstn n l.
Proof.
  rewrite length_firstn.
  destruct (Nat.min_spec n (List.length l)) as [[_ ->] | [Hle ->]];
    [reflexivity |].
  rewrite firstn_all. symmetry. apply firstn_all2. exact Hle.
Qed.

(** Solves or simplifies [H : l = pre ++ x :: post] for a list [l] whose
    spine is known: one goal for every position of [x] in [l]. *)
Ltac invert_split H :=
  lazymatch type of H with
  | [] = ?pre ++ _ :: _ => destruct pre; discriminate H
  | _ :: _ = ?pre ++ _ :: _ =>
      let e := fresh "e" in
      let pre' := fresh "pre" in
      destruct pre as [| e pre']; cbn [app] in H;
      [ first [ discriminate H | injection H as ? ?; subst ]
      | let H' := fresh "H" in
        injection H as ? H'; subst e; invert_split H' ]
  end.

(** C2 (as stated, fails). The byte swap does not reach the whole of a buffer
    whose length is not a multiple of 8: of 12 bytes, [pio_byteswap] is
    called for [12 / 8 = 1] word, and [read_wgdos_header] then reads a buffer
    whose last four bytes are as the caller passed them. *)
Lemma header_read_with_unswapped_tail :
  let ext := stand_in littleEndian 0 (0, (0, 2, 1)) 0 0 true in
  let bytes_in := [x00; x00; x00; x04; x00; x00; x00; x00;
                   x00; x02; x00; x01] in
  exists post,
    trace (snd (run_unpack ext bytes_in (-9999)%float))
    = Call_pio_byteswap bytes_in 1 8 0
        :: Call_read_wgdos_header
             [x00; x00; x00; x00; x04; x00; x00; x00;
              x00; x02; x00; x01] 0
        :: post
    /\ 1 * 8 < Z.of_nat (List.length bytes_in)
    /\ skipn 8 (caller_bytes (snd (run_unpack ext bytes_in (-9999)%float)))
       = skipn 8 bytes_in.
Proof.
  eexists. split; [vm_compute; reflexivity |].
  split; [vm_compute; reflexivity | vm_compute; reflexivity].
Qed.

(** C2 (amended). In a call of [wgdos_unpack_py], the header is read from the
    caller's buffer as the normalisation left it: on a little-endian host the
    one call before [read_wgdos_header] is [pio_byteswap] on the buffer from
    its first byte (header words included) over the [n_bytes / 8] whole
    64-bit words it holds, with status 0; on a big-endian host nothing
    precedes it and the buffer is read as passed.  The whole words are all of
    the buffer but its last [n_bytes mod 8] bytes, and with a [pio_byteswap]
    that reverses the bytes of the words it is given these last bytes are
    read as the caller passed them.  In a call of [wgdos_pack_py],
    [pio_byteswap] is called after [cmps_all_wrapper] has returned the packed
    field with status 0, on that packed field; the only calls after it copy
    the bytes into the result string and free the buffer, and the string
    returned is a prefix of the swapped bytes. *)
Theorem byte_order_normalisation_order
    (ext : externals) (bytes_in : list byte) (datain : PyArrayObject float)
    (mdi : float) (accuracy : Z) :
  let n_bytes := Z.of_nat (List.length bytes_in) in
  let whole := (8 * Z.to_nat (cdiv n_bytes 8))%nat in
  (forall pre bytes st post,
      trace (snd (run_unpack ext bytes_in mdi))
      = pre ++ Call_read_wgdos_header bytes st :: post ->
      bytes = normalized ext bytes_in
      /\ (get_machine_endianism ext = littleEndian ->
          pre = [Call_pio_byteswap bytes_in (cdiv n_bytes 8) 8 0])
      /\ (get_machine_endianism ext = bigEndian -> pre = []))
  /\ n_bytes - 8 * cdiv n_bytes 8 = n_bytes mod 8
  /\ (swaps_words ext ->
      skipn whole (normalized ext bytes_in) = skipn whole bytes_in
      /\ Z.of_nat (List.length (skipn whole bytes_in)) = n_bytes mod 8
      /\ firstn whole (normalized ext bytes_in)
         = if is_little (get_machine_endianism ext)
           then byteswap_words 8 (Z.to_nat (cdiv n_bytes 8))
                  (firstn whole bytes_in)
           else firstn whole bytes_in)
  /\ (forall pre array len word_len st post,
      trace (snd (run_pack ext datain mdi accuracy))
      = pre ++ Call_pio_byteswap array len word_len st :: post ->
      (exists nmemb p nw,
          pre = [Call_calloc nmemb 8 p; Call_cmps_all_wrapper p array nw 0]
          /\ len = cdiv (wrap64 (nw + 1)) 2 /\ word_len = 8
          /\ (post = []
              \/ exists out_len ok,
                   post = [Call_PyString_FromStringAndSize out_len ok;
                           Call_free p]))
      /\ (forall s, fst (run_pack ext datain mdi accuracy) = Return s ->
            s = firstn (List.length s)
                       (snd (pio_byteswap ext array len word_len)))).
Proof.
  intros n_bytes whole.
  assert (Hdiv : cdiv n_bytes 8 = n_bytes / 8)
    by (unfold cdiv; apply Z.quot_div_nonneg; lia).
  assert (Hmod : n_bytes - 8 * cdiv n_bytes 8 = n_bytes mod 8).
  { rewrite Hdiv. pose proof (Z.div_mod n_bytes 8 ltac:(lia)). lia. }
  assert (Hwhole : (whole <= List.length bytes_in)%nat).
  { subst whole. pose proof (Z.mod_pos_bound n_bytes 8 ltac:(lia)).
    assert (0 <= cdiv n_bytes 8)
      by (rewrite Hdiv; apply Z.div_pos; lia).
    lia. }
  split; [| split; [| split]].
  - unfold run_unpack, wgdos_unpack_py, normalized. step.
    fold n_bytes.
    repeat (split_if; step; cbn [app]);
      intros pre bytes st post Htr; invert_split Htr.
    all: repeat split; intros; subst; try reflexivity; congruence.
  - exact Hmod.
  - intros Hswap.
    assert (Htail : Z.of_nat (List.length (skipn whole bytes_in))
                    = n_bytes mod 8).
    { rewrite length_skipn, <- Hmod. subst whole.
      assert (0 <= cdiv n_bytes 8)
        by (rewrite Hdiv; apply Z.div_pos; lia).
      lia. }
    unfold normalized. fold n_bytes.
    destruct (get_machine_endianism ext); cbn [is_little];
      [repeat split; [exact Htail] |].
    rewrite Hswap. subst whole.
    split; [apply byteswap_words_tail; exact Hwhole |].
    split; [exact Htail |].
    set (N := Z.to_nat (cdiv n_bytes 8)) in *.
    assert (Hpre : List.length (firstn (8 * N) bytes_in) = (8 * N)%nat)
      by (rewrite length_firstn; lia).
    rewrite <- (firstn_skipn (8 * N) bytes_in) at 1.
    rewrite (byteswap_words_app 8 N _ _ Hpre).
    apply firstn_app_exact.
    rewrite byteswap_words_length. exact Hpre.
  - unfold run_pack, wgdos_pack_py.
    destruct (PyArray_DIMS datain) as [| rows [| cols rest]]; step;
      try (intros pre array len word_len st post Htr; invert_split Htr).
    repeat (split_if; step; cbn [app]);
      intros pre array len word_len st post Htr; invert_split Htr.
    all: split;
      [ eexists _, _, _; repeat (split; [reflexivity |]);
        first [ left; reflexivity | right; eexists _, _; reflexivity ]
      | intros s Hs; try discriminate Hs; inversion Hs; subst s;
        match goal with
        | E : pio_byteswap _ _ _ _ = _ |- _ => rewrite E
        end;
        cbn [snd]; symmetry; apply firstn_prefix_self ].
Qed.

Lemma byte_order_normalisation_order_witness :
  let ext := stand_in littleEndian 0 (0, (0, 2, 1)) 0 0 true in
  let bytes_in := [x00; x00; x00; x04; x00; x00; x00; x00;
                   x00; x02; x00; x01] in
  let swapped := [x00; x00; x00; x00; x04; x00; x00; x00;
                  x00; x02; x00; x01] in
  (swapped = normalized ext bytes_in
   /\ (get_machine_endianism ext = littleEndian ->
       [Call_pio_byteswap bytes_in 1 8 0]
       = [Call_pio_byteswap bytes_in
            (cdiv (Z.of_nat (List.length bytes_in)) 8) 8 0])
   /\ (get_machine_endianism ext = bigEndian ->
       [Call_pio_byteswap bytes_in 1 8 0] = []))
  /\ swaps_words ext
  /\ skipn 8 (normalized ext bytes_in) = [x00; x02; x00; x01]
  /\ skipn 8 bytes_in = [x00; x02; x00; x01].
Proof.
  intros ext bytes_in swapped.
  pose proof (byte_order_normalisation_order ext bytes_in (mkArray [] [])
                (-9999)%float 0) as H.
  cbv zeta in H. destruct H as (Horder & _ & Htail & _).
  split.
  - apply (Horder [Call_pio_byteswap bytes_in 1 8 0] swapped 0
             [Call_calloc 2 8 (Some 0%nat);
              Call_xpnd_all_wrapper swapped 0;
              Call_PyArray_SimpleNewFromData [1; 2] true;
              Call_PyArray_ENABLEFLAGS_OWNDATA (Some 0%nat)]).
    vm_compute. reflexivity.
  - split; [apply stand_in_swaps_words |].
    destruct (Htail (stand_in_swaps_words _ _ _ _ _ _)) as (Hskip & _ & _).
    split; [rewrite <- (eq_refl : skipn 8 bytes_in = [x00; x02; x00; x01]);
            exact Hskip | reflexivity].
Defined.

(** ** The length of the buffer is not checked *)

(** C3 (as stated, fails). On a little-endian host a buffer of 9 bytes is
    not rejected: [pio_byteswap] is called for [9 / 8 = 1] word and reports
    status 0, the first 8 bytes are swapped, the ninth is left as it was and
    the call goes on to return a grid. *)
Lemma unaligned_buffer_not_rejected :
  let ext := stand_in littleEndian 0 (0, (0, 2, 1)) 0 0 true in
  let bytes_in := [x01; x02; x03; x04; x05; x06; x07; x08; x09] in
  Z.of_nat (List.length bytes_in) mod 8 <> 0
  /\ run_unpack ext bytes_in (-9999)%float
     = (Return (mkArray [1; 2] [0%float; 0%float]),
        mkWorld [x08; x07; x06; x05; x04; x03; x02; x01; x09] [] 1
          [Call_pio_byteswap bytes_in 1 8 0;
           Call_read_wgdos_header
             [x08; x07; x06; x05; x04; x03; x02; x01; x09] 0;
           Call_calloc 2 8 (Some 0%nat);
           Call_xpnd_all_wrapper
             [x08; x07; x06; x05; x04; x03; x02; x01; x09] 0;
           Call_PyArray_SimpleNewFromData [1; 2] true;
           Call_PyArray_ENABLEFLAGS_OWNDATA (Some 0%nat)]).
Proof.
  split; [vm_compute; discriminate | vm_compute; reflexivity].
Qed.

(** C3 (amended). [wgdos_unpack_py] does not look at the remainder of the
    length: on a little-endian host it calls [pio_byteswap] for the truncated
    count [n_bytes / 8] and stops with "Problem in byte-swapping" exactly when
    that call reports a status other than 0, otherwise it goes on to read the
    header; on a big-endian host there is no byte swap and the first call is
    [read_wgdos_header]. *)
Theorem byteswap_failure_is_status_only
    (ext : externals) (bytes_in : list byte) (mdi : float) :
  let n_bytes := Z.of_nat (List.length bytes_in) in
  let swap := pio_byteswap ext bytes_in (cdiv n_bytes 8) 8 in
  (get_machine_endianism ext = littleEndian -> fst swap <> 0 ->
     run_unpack ext bytes_in mdi
     = (Raise (PyExc_ValueError "Problem in byte-swapping"),
        mkWorld (snd swap) [] 0
                [Call_pio_byteswap bytes_in (cdiv n_bytes 8) 8 (fst swap)]))
  /\ (get_machine_endianism ext = littleEndian -> fst swap = 0 ->
      exists st post,
        trace (snd (run_unpack ext bytes_in mdi))
        = Call_pio_byteswap bytes_in (cdiv n_bytes 8) 8 0
            :: Call_read_wgdos_header (snd swap) st :: post)
  /\ (get_machine_endianism ext = bigEndian ->
      exists st post,
        trace (snd (run_unpack ext bytes_in mdi))
        = Call_read_wgdos_header bytes_in st :: post).
Proof.
  intros n_bytes swap.
  assert (Hin : ~ n_bytes < cdiv n_bytes sizeof_int64 * sizeof_int64).
  { unfold cdiv, sizeof_int64. rewrite Z.quot_div_nonneg by lia.
    pose proof (Z.div_mod n_bytes 8 ltac:(lia)).
    pose proof (Z.mod_pos_bound n_bytes 8 ltac:(lia)). lia. }
  subst swap. unfold run_unpack, wgdos_unpack_py. step. fold n_bytes.
  change sizeof_int64 with 8 in *.
  repeat split; intros Hend; rewrite Hend; cbn [is_little]; step.
  - intros Hst.
    destruct (Z.ltb_spec n_bytes (cdiv n_bytes 8 * 8)); [contradiction |].
    destruct (pio_byteswap ext bytes_in (cdiv n_bytes 8) 8) as [st sw].
    step. destruct (Z.eqb_spec st 0); [contradiction |]. reflexivity.
  - intros Hst.
    destruct (Z.ltb_spec n_bytes (cdiv n_bytes 8 * 8)); [contradiction |].
    destruct (pio_byteswap ext bytes_in (cdiv n_bytes 8) 8) as [st sw].
    step. cbn [fst] in Hst. subst st. step.
    repeat (split_if; step; cbn [app]); try congruence;
      eexists _, _; reflexivity.
  - repeat (split_if; step; cbn [app]); eexists _, _; reflexivity.
Qed.

Lemma byteswap_failure_is_status_only_witness :
  let ext := stand_in littleEndian 1 (0, (0, 2, 1)) 0 0 true in
  let bytes_in := [x01; x02; x03; x04; x05; x06; x07; x08; x09] in
  get_machine_endianism ext = littleEndian
  /\ fst (pio_byteswap ext bytes_in 1 8) <> 0
  /\ run_unpack ext bytes_in (-9999)%float
     = (Raise (PyExc_ValueError "Problem in byte-swapping"),
        mkWorld [x08; x07; x06; x05; x04; x03; x02; x01; x09] [] 0
                [Call_pio_byteswap bytes_in 1 8 1]).
Proof.
  intros ext bytes_in.
  split; [reflexivity |]. split; [vm_compute; discriminate |].
  apply (proj1 (byteswap_failure_is_status_only ext bytes_in (-9999)%float)).
  - reflexivity.
  - vm_compute. discriminate.
Defined.

(** ** The caller's buffer *)









(** ** Buffers obtained from [calloc] *)

(** X1. Every call of [wgdos_unpack_py] ends with no block of its own still
    allocated: the block is freed on the two error paths that follow the
    allocation and handed to the array on success. *)
Lemma wgdos_unpack_py_releases_buffer
    (ext : externals) (bytes_in : list byte) (mdi : float) :
  live (snd (run_unpack ext bytes_in mdi)) = [].
Proof.
  unfold run_unpack, wgdos_unpack_py. step.
  repeat (split_if; step); reflexivity.
Qed.

(** X2. A failing call of [wgdos_pack_py] has freed its buffer, except on
    the path where [pio_byteswap] reports an error. *)
Lemma wgdos_pack_py_releases_buffer_unless_swap_fails
    (ext : externals) (datain : PyArrayObject float) (mdi : float)
    (accuracy : Z) (e : py_error) :
  fst (run_pack ext datain mdi accuracy) = Raise e ->
  live (snd (run_pack ext datain mdi accuracy)) = []
  \/ (e = PyExc_ValueError "Problem in byte-swapping"
      /\ exists pre array len st,
           st <> 0
           /\ trace (snd (run_pack ext datain mdi accuracy))
              = pre ++ [Call_pio_byteswap array len 8 st]).
Proof.
  unfold run_pack, wgdos_pack_py.
  destruct (PyArray_DIMS datain) as [| rows [| cols rest]]; step;
    try discriminate.
  repeat (split_if; step; cbn [app]);
    intros Hr; try discriminate Hr;
    try (left; reflexivity).
  all: right; injection Hr as <-; split; [reflexivity |].
  all: eexists [_; _], _, _, _; split; [eassumption | reflexivity].
Qed.

(** C5. The claim holds for [wgdos_unpack_py]
    ([wgdos_unpack_py_releases_buffer]) and for the packing-error path of
    [wgdos_pack_py], but not for its byte-swap error path: a 1 x 2 field on a
    little-endian host with [pio_byteswap] reporting status 1 returns the
    error while block 0, the buffer from [calloc], is still allocated (no
    [free] in the calls made). *)
Theorem pack_byteswap_error_keeps_buffer :
  let ext := stand_in littleEndian 1 (0, (0, 0, 0)) 0 3 true in
  let datain := mkArray [1; 2] [1.5%float; 2.5%float] in
  run_pack ext datain (-9999)%float 0
  = (Raise (PyExc_ValueError "Problem in byte-swapping"),
     mkWorld [] [0%nat] 1
       [Call_calloc 2 8 (Some 0%nat);
        Call_cmps_all_wrapper (Some 0%nat) (repeat x00 16) 3 0;
        Call_pio_byteswap (repeat x00 16) 2 8 1]).
Proof. vm_compute. reflexivity. Qed.

(** C8. [wgdos_unpack_py] reports a failed [calloc]: when [calloc] returned
    [NULL] the call made nothing after it and raised "Unable to allocate
    memory for unpacking".  [wgdos_pack_py] does not: when [calloc] returns
    [NULL] for the field of an array with at least two dimensions, the next
    call is [cmps_all_wrapper] with the [NULL] pointer. *)
Theorem failed_calloc_in_unpack_and_pack
    (ext : externals) (bytes_in : list byte) (datain : PyArrayObject float)
    (mdi : float) (accuracy : Z) :
  (forall pre nmemb size post,
      trace (snd (run_unpack ext bytes_in mdi))
      = pre ++ Call_calloc nmemb size NULL :: post ->
      post = []
      /\ fst (run_unpack ext bytes_in mdi)
         = Raise (PyExc_ValueError "Unable to allocate memory for unpacking"))
  /\ (forall rows cols rest,
      PyArray_DIMS datain = rows :: cols :: rest ->
      calloc_finds_memory ext (to_size_t (wrap64 (rows * cols))) 8 = false ->
      exists packed nw st post,
        trace (snd (run_pack ext datain mdi accuracy))
        = Call_calloc (to_size_t (wrap64 (rows * cols))) 8 NULL
            :: Call_cmps_all_wrapper NULL packed nw st :: post).
Proof.
  split.
  - unfold run_unpack, wgdos_unpack_py. step.
    repeat (split_if; step; cbn [app]);
      intros pre nmemb size post Htr; invert_split Htr;
      try discriminate; auto.
  - intros rows cols rest Hdims Hmem.
    unfold run_pack, wgdos_pack_py. rewrite Hdims. step.
    change sizeof_int64 with 8. rewrite Hmem. step.
    repeat (split_if; step; cbn [app]); eexists _, _, _, _; reflexivity.
Qed.

Lemma failed_calloc_in_unpack_and_pack_witness :
  let ext := stand_in littleEndian 0 (0, (0, 2, 1)) 0 3 false in
  let datain := mkArray [1; 2] [1.5%float; 2.5%float] in
  run_pack ext datain (-9999)%float 0
  = (Undefined,
     mkWorld [] [] 0
       [Call_calloc 2 8 NULL; Call_cmps_all_wrapper NULL [] 3 0])
  /\ exists packed nw st post,
       trace (snd (run_pack ext datain (-9999)%float 0))
       = Call_calloc (to_size_t (wrap64 (1 * 2))) 8 NULL
           :: Call_cmps_all_wrapper NULL packed nw st :: post.
Proof.
  intros ext datain.
  split; [vm_compute; reflexivity |].
  apply (proj2 (failed_calloc_in_unpack_and_pack ext [] datain
                  (-9999)%float 0) 1 2 []); reflexivity.
Defined.

(** ** Shapes *)

(** C6 (as stated, fails). [wgdos_pack_py] has no shape to compare with: it
    reads [dims[0]] and [dims[1]] of the array it is given.  For an array of
    shape 1 x 1 x 2, which is not a rows x cols grid, it packs a 1 x 1 field
    and returns a string. *)
Lemma pack_accepts_array_of_other_shape :
  let ext := stand_in bigEndian 0 (0, (0, 0, 0)) 0 2 true in
  let datain := mkArray [1; 1; 2] [1.5%float; 2.5%float] in
  (forall rows cols, PyArray_DIMS datain <> [rows; cols])
  /\ run_pack ext datain (-9999)%float 0
     = (Return (repeat x00 8),
        mkWorld [] [] 1
          [Call_calloc 1 8 (Some 0%nat);
           Call_cmps_all_wrapper (Some 0%nat) (repeat x00 8) 2 0;
           Call_PyString_FromStringAndSize 8 true;
           Call_free (Some 0%nat)]).
Proof.
  split; [intros rows cols; discriminate | vm_compute; reflexivity].
Qed.

(** C6 (amended). A grid returned by [wgdos_unpack_py] has the shape
    [rows; cols] that [read_wgdos_header] read, with status 0, from the
    normalised buffer.  [wgdos_pack_py] compares no shapes: it takes [rows]
    and [cols] from the first two dimensions of its array, and a
    [ValueError] it raises is either the message of [cmps_all_wrapper], which
    was called with these [rows] and [cols] and returned a status other than
    0, or "Problem in byte-swapping". *)
Theorem unpack_shape_and_pack_errors
    (ext : externals) (bytes_in : list byte) (datain : PyArrayObject float)
    (mdi : float) (accuracy : Z) :
  (forall arr,
      fst (run_unpack ext bytes_in mdi) = Return arr ->
      exists acc cols rows,
        read_wgdos_header ext (normalized ext bytes_in) = (0, (acc, cols, rows))
        /\ PyArray_DIMS arr = [rows; cols])
  /\ (forall msg,
      fst (run_pack ext datain mdi accuracy) = Raise (PyExc_ValueError msg) ->
      exists rows cols rest p buf packed nw st err_msg,
        PyArray_DIMS datain = rows :: cols :: rest
        /\ cmps_all_wrapper ext (PyArray_DATA datain) p buf
             (wrap64 (rows * cols)) cols rows accuracy mdi
           = (packed, nw, st, err_msg)
        /\ ((st <> 0 /\ msg = err_msg)
            \/ (st = 0 /\ msg = "Problem in byte-swapping"%string))).
Proof.
  split.
  - unfold run_unpack, wgdos_unpack_py, normalized. step.
    repeat (split_if; step); intros arr Hr; try discriminate Hr.
    all: injection Hr as <-; subst; eexists _, _, _; split; reflexivity.
  - unfold run_pack, wgdos_pack_py.
    destruct (PyArray_DIMS datain) as [| rows [| cols rest]]; step;
      try discriminate.
    repeat (split_if; step); intros msg Hr; try discriminate Hr.
    all: injection Hr as <-; eexists _, _, _, _, _, _, _, _, _;
      split; [reflexivity |]; split; [eassumption |]; auto.
Qed.

Lemma unpack_shape_and_pack_errors_witness :
  let ok := stand_in littleEndian 0 (0, (-3, 2, 1)) 0 0 true in
  let failing := stand_in littleEndian 0 (0, (-3, 2, 1)) 1 0 true in
  let bytes_in := repeat x00 16 in
  let datain := mkArray [1; 2] [1.5%float; 2.5%float] in
  (fst (run_unpack ok bytes_in (-9999)%float)
   = Return (mkArray [1; 2] [0%float; 0%float])
   /\ exists acc cols rows,
        read_wgdos_header ok (normalized ok bytes_in) = (0, (acc, cols, rows))
        /\ PyArray_DIMS (mkArray [1; 2] [0%float; 0%float]) = [rows; cols])
  /\ fst (run_pack failing datain (-9999)%float 0)
     = Raise (PyExc_ValueError "cmps_all_wrapper failed")
  /\ exists rows cols rest p buf packed nw st err_msg,
       PyArray_DIMS datain = rows :: cols :: rest
       /\ cmps_all_wrapper failing (PyArray_DATA datain) p buf
            (wrap64 (rows * cols)) cols rows 0 (-9999)%float
          = (packed, nw, st, err_msg)
       /\ ((st <> 0 /\ "cmps_all_wrapper failed"%string = err_msg)
           \/ (st = 0
               /\ "cmps_all_wrapper failed"%string
                  = "Problem in byte-swapping"%string)).
Proof.
  intros ok failing bytes_in datain.
  split; [split; [vm_compute; reflexivity |] |].
  - apply (proj1 (unpack_shape_and_pack_errors ok bytes_in datain
                    (-9999)%float 0)).
    vm_compute. reflexivity.
  - split; [vm_compute; reflexivity |].
    apply (proj2 (unpack_shape_and_pack_errors failing bytes_in datain
                    (-9999)%float 0)).
    vm_compute. reflexivity.
Defined.

(** ** Packing, then unpacking *)

Lemma swap_prefix_swap (Q : nat) (packed : list byte) :
  (8 * Q <= List.length packed)%nat ->
  List.length (firstn (8 * Q) (byteswap_words 8 Q packed)) = (8 * Q)%nat
  /\ byteswap_words 8 Q (firstn (8 * Q) (byteswap_words 8 Q packed))
     = firstn (8 * Q) packed.
Proof.
  intros Hle.
  assert (Hpre : List.length (firstn (8 * Q) packed) = (8 * Q)%nat)
    by (rewrite length_firstn; lia).
  rewrite <- (firstn_skipn (8 * Q) packed) at 1 2.
  rewrite (byteswap_words_app 8 Q _ _ Hpre).
  rewrite (firstn_app_exact (8 * Q))
    by (rewrite byteswap_words_length; exact Hpre).
  split.
  - rewrite byteswap_words_length. exact Hpre.
  - apply byteswap_words_twice. exact Hpre.
Qed.

Lemma half_words_in_range nw :
  0 <= nw < 2 ^ 60 ->
  let q := cdiv (wrap64 (nw + 1)) 2 in
  0 <= q /\ wrap64 (q * sizeof_double) = 8 * q.
Proof.
  intros H q. subst q. unfold cdiv, sizeof_double.
  rewrite (wrap64_small (nw + 1)) by lia.
  rewrite Z.quot_div_nonneg by lia.
  assert (Hq : 0 <= (nw + 1) / 2 < 2 ^ 60).
  { split; [apply Z.div_pos; lia |].
    apply Z.div_lt_upper_bound; lia. }
  rewrite wrap64_small by lia. lia.
Qed.

(** X8. On one host whose [pio_byteswap] reverses the bytes of each word,
    the string a [wgdos_pack_py] call returned is normalised by
    [wgdos_unpack_py] to the packed field as [cmps_all_wrapper] wrote it:
    the header is read from, and [xpnd_all_wrapper] is given, the first
    [8 * ((num_words + 1) / 2)] bytes of that buffer, in native order. *)
Lemma pack_then_unpack_reads_packed_field
    (ext : externals) (datain : PyArrayObject float) (mdi : float)
    (accuracy : Z) (s : list byte) (w1 : world) (p : ptr)
    (packed : list byte) (nw : Z) :
  swaps_words ext ->
  run_pack ext datain mdi accuracy = (Return s, w1) ->
  In (Call_cmps_all_wrapper p packed nw 0) (trace w1) ->
  0 <= nw < 2 ^ 60 ->
  normalized ext s = firstn (List.length s) packed.
Proof.
  intros Hswap Hrun Hin Hnw.
  destruct (half_words_in_range nw Hnw) as [Hq0 Hlen].
  revert Hrun Hin.
  unfold run_pack, wgdos_pack_py, normalized.
  destruct (PyArray_DIMS datain) as [| rows [| cols rest]]; step;
    try discriminate.
  repeat (split_if; step; try discriminate).
  all: intros Hret; inversion Hret; subst s w1; clear Hret; step.
  all: intros Hin; cbn [In] in Hin;
    repeat (destruct Hin as [Hin | Hin]; try discriminate Hin);
    try contradiction; injection Hin as ? ? ? ?; subst.
  all: try (symmetry; apply firstn_prefix_self).
  all: unfold swaps_words, sizeof_int64 in *.
  all: repeat match goal with
       | E : pio_byteswap _ ?b ?l 8 = (_, ?sw) |- _ =>
           assert (sw = byteswap_words 8 (Z.to_nat l) b)
             by (rewrite <- Hswap, E; reflexivity);
           clear E; subst sw
       end.
  all: rewrite Hlen in *.
  all: set (q := cdiv (wrap64 (nw + 1)) 2) in *.
  all: replace (Z.to_nat (8 * q)) with (8 * Z.to_nat q)%nat by lia.
  all: destruct (swap_prefix_swap (Z.to_nat q) packed ltac:(lia))
         as [Hl Hs].
  all: rewrite Hl.
  all: replace (Z.to_nat (cdiv (Z.of_nat (8 * Z.to_nat q)) 8))
         with (Z.to_nat q)
    by (unfold cdiv; rewrite Z.quot_div_nonneg by lia;
        rewrite Nat2Z.inj_mul, Z.mul_comm, Z.div_mul by lia; lia).
  all: exact Hs.
Qed.

(** ** Further properties of the three functions *)

Lemma wgdos_pack_py_releases_buffer_unless_swap_fails_witness :
  let ext := stand_in littleEndian 0 (0, (0, 0, 0)) 1 3 true in
  let datain := mkArray [1; 2] [1.5%float; 2.5%float] in
  fst (run_pack ext datain (-9999)%float 0)
  = Raise (PyExc_ValueError "cmps_all_wrapper failed")
  /\ (live (snd (run_pack ext datain (-9999)%float 0)) = []
      \/ (PyExc_ValueError "cmps_all_wrapper failed"
          = PyExc_ValueError "Problem in byte-swapping"
          /\ exists pre array len st,
               st <> 0
               /\ trace (snd (run_pack ext datain (-9999)%float 0))
                  = pre ++ [Call_pio_byteswap array len 8 st])).
Proof.
  intros ext datain.
  split; [vm_compute; reflexivity |].
  apply (wgdos_pack_py_releases_buffer_unless_swap_fails ext datain
           (-9999)%float 0).
  vm_compute. reflexivity.
Defined.

Lemma pack_then_unpack_reads_packed_field_witness :
  let ext := stand_in littleEndian 0 (0, (0, 2, 1)) 0 3 true in
  let datain := mkArray [1; 2] [1.5%float; 2.5%float] in
  let call := run_pack ext datain (-9999)%float 0 in
  call = (Return (repeat x00 16), snd call)
  /\ In (Call_cmps_all_wrapper (Some 0%nat) (repeat x00 16) 3 0)
        (trace (snd call))
  /\ normalized ext (repeat x00 16)
     = firstn (List.length (repeat x00 16)) (repeat x00 16).
Proof.
  intros ext datain call.
  split; [vm_compute; reflexivity |].
  split; [vm_compute; right; left; reflexivity |].
  apply (pack_then_unpack_reads_packed_field ext datain (-9999)%float 0
           (repeat x00 16) (snd call) (Some 0%nat) (repeat x00 16) 3).
  - apply stand_in_swaps_words.
  - vm_compute. reflexivity.
  - vm_compute. right. left. reflexivity.
  - lia.
Defined.

(** Closes a goal [released_once t] for a trace [t] whose spine is known. *)
Ltac solve_released_once :=
  unfold released_once; cbn [filter is_release List.length In];
  split;
  [ lia
  | intros ev Hev;
    first
      [ contradiction
      | destruct Hev as [<- | []];
        eexists _, _, _;
        split;
        [ first [left; reflexivity | right; reflexivity]
        | repeat first [left; reflexivity | right] ] ] ].

(** X3. No function releases a block twice, frees a block it has handed to
    numpy, or releases anything but what its own [calloc] returned: in every
    call of [wgdos_unpack_py], [wgdos_pack_py] and [sstpert_py] at most one
    of the calls made is a [free] or a hand-over to the array, and its
    pointer is the one [calloc] returned. *)
Theorem block_released_at_most_once
    (ext : externals) (bytes_in : list byte) (datain : PyArrayObject float)
    (mdi : float) (accuracy : Z) (factor : float) (dt : PyArrayObject Z)
    (fieldclim : PyArrayObject float) :
  released_once (trace (snd (run_unpack ext bytes_in mdi)))
  /\ released_once (trace (snd (run_pack ext datain mdi accuracy)))
  /\ released_once (trace (snd (run_sstpert ext factor dt fieldclim))).
Proof.
  split; [| split].
  - unfold run_unpack, wgdos_unpack_py. step.
    repeat (split_if; step; cbn [app]); solve_released_once.
  - unfold run_pack, wgdos_pack_py.
    destruct (PyArray_DIMS datain) as [| rows [| cols rest]]; step;
      try solve_released_once.
    repeat (split_if; step; cbn [app]); solve_released_once.
  - unfold run_sstpert, sstpert_py.
    destruct (PyArray_DIMS fieldclim) as [| rows [| cols [| months rest]]];
      step; try solve_released_once.
    destruct (Z.eqb_spec months 12); cbn [negb]; step;
      [| solve_released_once].
    destruct (PyArray_DIMS dt) as [| len_dt rest']; step;
      [solve_released_once |].
    repeat (split_if; step; cbn [app]); solve_released_once.
Qed.

Lemma to_size_t_wrap64 z : to_size_t (wrap64 z) = z mod 2 ^ 64.
Proof.
  unfold to_size_t, wrap64.
  rewrite Zminus_mod, Z.mod_mod by lia.
  rewrite <- Zminus_mod. f_equal. lia.
Qed.

(** X4. [xpnd_all_wrapper] is only called once the header has been read with
    status 0 and [calloc] has returned a block, and it is given the very
    buffer the header was read from: the caller's buffer as normalisation
    left it. *)
Theorem xpnd_all_wrapper_call_context
    (ext : externals) (bytes_in : list byte) (mdi : float)
    (pre : list event) (comp : list byte) (st : Z) (post : list event) :
  trace (snd (run_unpack ext bytes_in mdi))
  = pre ++ Call_xpnd_all_wrapper comp st :: post ->
  comp = normalized ext bytes_in
  /\ In (Call_read_wgdos_header comp 0) pre
  /\ (exists nmemb b, In (Call_calloc nmemb 8 (Some b)) pre)
  /\ (st <> 0 ->
      exists p msg,
        post = [Call_free p]
        /\ fst (run_unpack ext bytes_in mdi) = Raise (PyExc_ValueError msg)).
Proof.
  unfold run_unpack, wgdos_unpack_py, normalized. step.
  repeat (split_if; step; cbn [app]); intros Htr; invert_split Htr.
  all: subst; split; [reflexivity |].
  all: split; [cbn [In]; auto |].
  all: split; [eexists _, _; cbn [In]; auto |].
  all: intros Hst; try congruence.
  all: eexists _, _; split; reflexivity.
Qed.

Lemma xpnd_all_wrapper_call_context_witness :
  let ext := stand_in littleEndian 0 (0, (0, 2, 1)) 1 0 true in
  let bytes_in := [x01; x02; x03; x04; x05; x06; x07; x08] in
  let swapped := [x08; x07; x06; x05; x04; x03; x02; x01] in
  let pre := [Call_pio_byteswap bytes_in 1 8 0;
              Call_read_wgdos_header swapped 0;
              Call_calloc 2 8 (Some 0%nat)] in
  swapped = normalized ext bytes_in
  /\ In (Call_read_wgdos_header swapped 0) pre
  /\ (exists nmemb b, In (Call_calloc nmemb 8 (Some b)) pre)
  /\ (1 <> 0 ->
      exists p msg,
        [Call_free (Some 0%nat)] = [Call_free p]
        /\ fst (run_unpack ext bytes_in (-9999)%float)
           = Raise (PyExc_ValueError msg)).
Proof.
  intros ext bytes_in swapped pre.
  apply (xpnd_all_wrapper_call_context ext bytes_in (-9999)%float pre swapped
           1 [Call_free (Some 0%nat)]).
  vm_compute. reflexivity.
Defined.

(** X5. The grid [wgdos_unpack_py] returns holds what [xpnd_all_wrapper]
    wrote, with status 0, into a zero-filled block of [rows * cols] cells
    (modulo 2^64), when given the normalised buffer, its length in 64-bit
    words [n_bytes / 8], and the [cols], [rows] and accuracy that
    [read_wgdos_header] read from that buffer, with the caller's [mdi]; the
    shape is [rows; cols]. *)
Theorem wgdos_unpack_py_returns_expanded_field
    (ext : externals) (bytes_in : list byte) (mdi : float)
    (arr : PyArrayObject float) :
  fst (run_unpack ext bytes_in mdi) = Return arr ->
  exists acc cols rows data msg,
    read_wgdos_header ext (normalized ext bytes_in) = (0, (acc, cols, rows))
    /\ xpnd_all_wrapper ext
         (repeat 0%float (Z.to_nat ((rows * cols) mod 2 ^ 64)))
         (normalized ext bytes_in)
         (Z.of_nat (List.length bytes_in) / 8) cols rows acc mdi
       = (data, 0, msg)
    /\ arr = mkArray [rows; cols] data.
Proof.
  unfold run_unpack, wgdos_unpack_py, normalized. step.
  assert (Hdiv : cdiv (Z.of_nat (List.length bytes_in)) sizeof_double
                 = Z.of_nat (List.length bytes_in) / 8)
    by (unfold cdiv, sizeof_double; apply Z.quot_div_nonneg; lia).
  repeat (split_if; step); intros Hr; try discriminate Hr.
  all: injection Hr as <-; subst.
  all: rewrite to_size_t_wrap64, Hdiv in *.
  all: match goal with
       | H : xpnd_all_wrapper _ _ _ _ ?c ?r ?a _ = (?d, _, ?m) |- _ =>
           exists a, c, r, d, m
       end.
  all: split; [reflexivity |].
  all: split; [| reflexivity].
  all: match goal with
       | H : NULL = Some _ |- _ => discriminate H
       | H : xpnd_all_wrapper _ _ _ _ _ _ _ _ = _ |- _ => exact H
       end.
Qed.

Lemma wgdos_unpack_py_returns_expanded_field_witness :
  let ext := stand_in littleEndian 0 (0, (-3, 2, 1)) 0 0 true in
  let bytes_in := repeat x00 16 in
  fst (run_unpack ext bytes_in (-9999)%float)
  = Return (mkArray [1; 2] [0%float; 0%float])
  /\ exists acc cols rows data msg,
       read_wgdos_header ext (normalized ext bytes_in)
       = (0, (acc, cols, rows))
       /\ xpnd_all_wrapper ext
            (repeat 0%float (Z.to_nat ((rows * cols) mod 2 ^ 64)))
            (normalized ext bytes_in)
            (Z.of_nat (List.length bytes_in) / 8) cols rows acc
            (-9999)%float
          = (data, 0, msg)
       /\ mkArray [1; 2] [0%float; 0%float] = mkArray [rows; cols] data.
Proof.
  intros ext bytes_in.
  split; [vm_compute; reflexivity |].
  apply (wgdos_unpack_py_returns_expanded_field ext bytes_in (-9999)%float).
  vm_compute. reflexivity.
Defined.

(** X6. [wgdos_unpack_py] does not test the [rows] and [cols] of the header:
    once the header is read with status 0, [calloc] is asked for
    [rows * cols] cells reduced modulo 2^64, whatever their sign, and the call
    fails with the allocation error when that request is refused. *)
Theorem header_dimensions_not_validated
    (ext : externals) (bytes_in : list byte) (mdi : float)
    (acc cols rows : Z) :
  (get_machine_endianism ext = littleEndian ->
   fst (pio_byteswap ext bytes_in
          (cdiv (Z.of_nat (List.length bytes_in)) 8) 8) = 0) ->
  read_wgdos_header ext (normalized ext bytes_in) = (0, (acc, cols, rows)) ->
  exists pre p post,
    trace (snd (run_unpack ext bytes_in mdi))
    = pre ++ Call_calloc ((rows * cols) mod 2 ^ 64) 8 p :: post
    /\ (p = NULL ->
        fst (run_unpack ext bytes_in mdi)
        = Raise (PyExc_ValueError "Unable to allocate memory for unpacking")).
Proof.
  unfold run_unpack, wgdos_unpack_py, normalized. step.
  change sizeof_int64 with 8. change sizeof_double with 8.
  assert (Hin : ~ Z.of_nat (List.length bytes_in)
                  < cdiv (Z.of_nat (List.length bytes_in)) 8 * 8).
  { unfold cdiv. rewrite Z.quot_div_nonneg by lia.
    pose proof (Z.div_mod (Z.of_nat (List.length bytes_in)) 8 ltac:(lia)).
    pose proof (Z.mod_pos_bound (Z.of_nat (List.length bytes_in)) 8
                  ltac:(lia)). lia. }
  destruct (get_machine_endianism ext); cbn [is_little]; step;
    intros Hswap Hhdr.
  - rewrite Hhdr. step. rewrite to_size_t_wrap64.
    repeat (split_if; step; cbn [app]).
    all: try congruence.
    all: try match goal with H : NULL = Some _ |- _ => discriminate H end.
    all: eexists [_], _, _; split; [reflexivity |];
      intros Hp; first [discriminate Hp | reflexivity].
  - specialize (Hswap eq_refl).
    destruct (Z.ltb_spec (Z.of_nat (List.length bytes_in))
                (cdiv (Z.of_nat (List.length bytes_in)) 8 * 8));
      [contradiction |].
    destruct (pio_byteswap ext bytes_in
                (cdiv (Z.of_nat (List.length bytes_in)) 8) 8)
      as [swap_status swapped].
    cbn [fst snd] in *. subst swap_status. step.
    rewrite Z.eqb_refl. cbn [negb]. step. rewrite Hhdr. step.
    rewrite to_size_t_wrap64.
    repeat (split_if; step; cbn [app]).
    all: try congruence.
    all: try match goal with H : NULL = Some _ |- _ => discriminate H end.
    all: eexists [_; _], _, _; split; [reflexivity |];
      intros Hp; first [discriminate Hp | reflexivity].
Qed.

Lemma header_dimensions_not_validated_witness :
  let ext := stand_in bigEndian 0 (0, (0, 1, -1)) 0 0 false in
  let bytes_in := repeat x00 16 in
  read_wgdos_header ext (normalized ext bytes_in) = (0, (0, 1, -1))
  /\ (-1 * 1) mod 2 ^ 64 = 18446744073709551615
  /\ exists pre p post,
       trace (snd (run_unpack ext bytes_in (-9999)%float))
       = pre ++ Call_calloc ((-1 * 1) mod 2 ^ 64) 8 p :: post
       /\ (p = NULL ->
           fst (run_unpack ext bytes_in (-9999)%float)
           = Raise (PyExc_ValueError
                      "Unable to allocate memory for unpacking")).
Proof.
  intros ext bytes_in.
  split; [reflexivity |]. split; [reflexivity |].
  apply (header_dimensions_not_validated ext bytes_in (-9999)%float 0 1 (-1)).
  - intros H. discriminate H.
  - reflexivity.
Defined.

(** X7. [wgdos_pack_py] does not compare the word count the packing routine
    reports with the size of its buffer: when the routine returns status 0
    and a count whose [(num_words + 1) / 2] 64-bit words are more than the
    buffer holds, the byte swap (little-endian host) or the copy into the
    string (big-endian host) runs past the end of the buffer, and the buffer
    is not freed. *)
Theorem wgdos_pack_py_trusts_num_words
    (ext : externals) (datain : PyArrayObject float) (mdi : float)
    (accuracy rows cols : Z) (rest : list Z) (packed : list byte) (nw : Z)
    (msg : string) :
  PyArray_DIMS datain = rows :: cols :: rest ->
  calloc_finds_memory ext ((rows * cols) mod 2 ^ 64) 8 = true ->
  cmps_all_wrapper ext (PyArray_DATA datain) (Some 0%nat)
    (repeat x00 (Z.to_nat ((rows * cols) mod 2 ^ 64 * 8)))
    (wrap64 (rows * cols)) cols rows accuracy mdi
  = (packed, nw, 0, msg) ->
  0 <= nw < 2 ^ 60 ->
  Z.of_nat (List.length packed) < 8 * ((nw + 1) / 2) ->
  fst (run_pack ext datain mdi accuracy) = Undefined
  /\ live (snd (run_pack ext datain mdi accuracy)) = [0%nat].
Proof.
  intros Hdims Hmem Hcmps Hnw Hlen.
  destruct (half_words_in_range nw Hnw) as [Hq0 Hout].
  assert (Hq : cdiv (wrap64 (nw + 1)) 2 = (nw + 1) / 2).
  { unfold cdiv. rewrite wrap64_small by lia.
    apply Z.quot_div_nonneg; lia. }
  unfold run_pack, wgdos_pack_py. rewrite Hdims. step.
  rewrite to_size_t_wrap64. change sizeof_int64 with 8.
  rewrite Hmem. step. rewrite Hcmps. step.
  rewrite Z.eqb_refl. cbn [negb]. step.
  change sizeof_int64 with 8 in *. rewrite Hout, Hq in *.
  destruct (get_machine_endianism ext); cbn [is_little]; step.
  - destruct (Z.ltb_spec (8 * ((nw + 1) / 2)) 0); [lia |].
    destruct (Z.ltb_spec (Z.of_nat (List.length packed))
                (8 * ((nw + 1) / 2))); [| lia].
    split; reflexivity.
  - destruct (Z.ltb_spec (Z.of_nat (List.length packed))
                ((nw + 1) / 2 * 8)); [| lia].
    split; reflexivity.
Qed.

Lemma wgdos_pack_py_trusts_num_words_witness :
  let ext := stand_in littleEndian 0 (0, (0, 0, 0)) 0 5 true in
  let datain := mkArray [1; 2] [1.5%float; 2.5%float] in
  Z.of_nat (List.length (repeat x00 16)) < 8 * ((5 + 1) / 2)
  /\ fst (run_pack ext datain (-9999)%float 0) = Undefined
  /\ live (snd (run_pack ext datain (-9999)%float 0)) = [0%nat].
Proof.
  intros ext datain.
  split; [vm_compute; reflexivity |].
  apply (wgdos_pack_py_trusts_num_words ext datain (-9999)%float 0 1 2 []
           (repeat x00 16) 5 "cmps_all_wrapper failed"%string).
  - reflexivity.
  - reflexivity.
  - reflexivity.
  - lia.
  - vm_compute. reflexivity.
Defined.

(** ** More on [sstpert_py] *)

(** X9. The grid [sstpert_py] returns holds what [sstpert] wrote into a
    zero-filled block of [rows * cols] cells (modulo 2^64), given the factor,
    the data of the descriptor, [rows], [cols] and the data of the
    climatology; it is returned only for a climatology whose third dimension
    is 12 and a descriptor whose first dimension is 8, further dimensions of
    either array being ignored; and whatever the outcome no block of the call
    is left allocated. *)
Theorem sstpert_py_returns_sstpert_output
    (ext : externals) (factor : float) (dt : PyArrayObject Z)
    (fieldclim : PyArrayObject float) :
  live (snd (run_sstpert ext factor dt fieldclim)) = []
  /\ forall arr,
       fst (run_sstpert ext factor dt fieldclim) = Return arr ->
       exists rows cols rest rest',
         PyArray_DIMS fieldclim = rows :: cols :: 12 :: rest
         /\ PyArray_DIMS dt = 8 :: rest'
         /\ arr = mkArray [rows; cols]
                    (sstpert ext factor (PyArray_DATA dt) rows cols
                       (PyArray_DATA fieldclim)
                       (repeat 0%float
                          (Z.to_nat ((rows * cols) mod 2 ^ 64)))).
Proof.
  unfold run_sstpert, sstpert_py.
  destruct (PyArray_DIMS fieldclim) as [| rows [| cols [| months rest]]];
    step; try (split; [reflexivity | intros arr Hr; discriminate Hr]).
  destruct (Z.eqb_spec months 12) as [-> | Hm]; cbn [negb]; step;
    [| split; [reflexivity | intros arr Hr; discriminate Hr]].
  destruct (PyArray_DIMS dt) as [| len_dt rest']; step;
    [split; [reflexivity | intros arr Hr; discriminate Hr] |].
  destruct (Z.eqb_spec len_dt 8) as [-> | Hn]; cbn [negb]; step;
    [| split; [reflexivity | intros arr Hr; discriminate Hr]].
  rewrite to_size_t_wrap64.
  repeat (split_if; step);
    try match goal with H : NULL = Some _ |- _ => discriminate H end;
    (split; [reflexivity | intros arr Hr; try discriminate Hr]).
  injection Hr as <-. eexists _, _, _, _. repeat split.
Qed.

(** ** [get_um_version_py] *)

Lemma strlen_Some (v : list byte) (n : nat) :
  strlen v = Some n ->
  exists rest,
    v = firstn n v ++ x00 :: rest
    /\ ~ In x00 (firstn n v)
    /\ (n < List.length v)%nat.
Proof.
  revert n. induction v as [| b v IH]; intros n H; cbn in H;
    [discriminate |].
  destruct (Byte.eqb b x00) eqn:Hb.
  - injection H as <-. apply Byte.byte_dec_bl in Hb. subst b.
    exists v. cbn. repeat split; [tauto | lia].
  - destruct (strlen v) as [m |] eqn:Hv; [| discriminate].
    injection H as <-.
    destruct (IH m eq_refl) as (rest & Hsplit & Hnot & Hlt).
    exists rest. cbn. repeat split.
    + f_equal. exact Hsplit.
    + intros [-> | Hin]; [| exact (Hnot Hin)].
      cbv in Hb. discriminate Hb.
    + lia.
Qed.

Lemma strlen_None (v : list byte) : strlen v = None <-> ~ In x00 v.
Proof.
  induction v as [| b v IH]; cbn.
  - tauto.
  - destruct (Byte.eqb b x00) eqn:Hb.
    + apply Byte.byte_dec_bl in Hb. subst b.
      split; [discriminate | intros H; exfalso; apply H; auto].
    + apply Byte.eqb_false in Hb.
      destruct (strlen v) as [m |]; cbn.
      * split; [discriminate |].
        intros H. exfalso.
        assert (Hv : ~ In x00 v) by (intros Hin; apply H; auto).
        apply IH in Hv. discriminate Hv.
      * split; [| reflexivity].
        intros _ [Heq | Hin]; [congruence |].
        exact (proj1 IH eq_refl Hin).
Qed.

(** X10. A string [get_um_version_py] returns is the bytes the library wrote
    into [version] before the first NUL: it holds no NUL byte, and for the
    eight bytes of the array it is at most seven bytes long. *)
Theorem get_um_version_py_returns_c_string
    (ext : externals) (get_um_version : list byte -> list byte)
    (version : list byte) (w : world) (s : list byte) (w' : world) :
  get_um_version_py ext get_um_version version w = (Return s, w') ->
  (exists rest, get_um_version version = s ++ x00 :: rest)
  /\ ~ In x00 s
  /\ (List.length (get_um_version version) = 8%nat ->
      (List.length s <= 7)%nat).
Proof.
  unfold get_um_version_py.
  destruct (strlen (get_um_version version)) as [n |] eqn:Hn;
    [| discriminate].
  destruct (strlen_Some _ _ Hn) as (rest & Hsplit & Hnot & Hlt).
  step.
  destruct (Z.ltb_spec (Z.of_nat n) 0); [lia |].
  destruct (Z.ltb_spec (Z.of_nat (List.length (get_um_version version)))
              (Z.of_nat n)); [lia |].
  destruct (PyString_finds_memory ext (Z.of_nat n)); step;
    intros Hr; [| discriminate Hr].
  injection Hr as <- _. rewrite Nat2Z.id.
  split; [exists rest; exact Hsplit |]. split; [exact Hnot |].
  intros H8. rewrite length_firstn. lia.
Qed.

Lemma get_um_version_py_returns_c_string_witness :
  let ext := stand_in littleEndian 0 (0, (0, 0, 0)) 0 0 true in
  let get_um_version := fun _ : list byte =>
    [x31; x30; x2e; x39; x00; x00; x00; x00] in
  let junk := repeat xff 8 in
  let call := get_um_version_py ext get_um_version junk (initial_world []) in
  call = (Return [x31; x30; x2e; x39], snd call)
  /\ (exists rest,
        get_um_version junk = [x31; x30; x2e; x39] ++ x00 :: rest)
  /\ ~ In x00 [x31; x30; x2e; x39]
  /\ (List.length (get_um_version junk) = 8%nat ->
      (List.length [x31; x30; x2e; x39] <= 7)%nat).
Proof.
  intros ext get_um_version junk call.
  split; [vm_compute; reflexivity |].
  apply (get_um_version_py_returns_c_string ext get_um_version junk
           (initial_world []) [x31; x30; x2e; x39] (snd call)).
  vm_compute. reflexivity.
Defined.

(** X11. [get_um_version_py] relies on the library to end the version with a
    NUL inside the array: when the eight bytes hold none, [strlen] runs past
    the array; when they hold one, the call stays inside it and either
    returns the string or, if the interpreter cannot allocate it, passes the
    interpreter's error on. *)
Theorem get_um_version_py_needs_terminator
    (ext : externals) (get_um_version : list byte -> list byte)
    (version : list byte) (w : world) :
  (~ In x00 (get_um_version version) ->
   get_um_version_py ext get_um_version version w = (Undefined, w))
  /\ (In x00 (get_um_version version) ->
      exists s,
        fst (get_um_version_py ext get_um_version version w)
        = (if PyString_finds_memory ext (Z.of_nat (List.length s))
           then Return s else Raise PyExc_FromRuntime)
        /\ strlen (get_um_version version) = Some (List.length s)).
Proof.
  unfold get_um_version_py. split.
  - intros Hnot. apply strlen_None in Hnot. rewrite Hnot. reflexivity.
  - intros Hin.
    destruct (strlen (get_um_version version)) as [n |] eqn:Hn.
    2: { apply strlen_None in Hn. contradiction. }
    destruct (strlen_Some _ _ Hn) as (rest & Hsplit & Hnot & Hlt).
    exists (firstn n (get_um_version version)).
    assert (Hlen : List.length (firstn n (get_um_version version)) = n)
      by (rewrite length_firstn; lia).
    rewrite Hlen. split; [| reflexivity].
    step.
    destruct (Z.ltb_spec (Z.of_nat n) 0); [lia |].
    destruct (Z.ltb_spec (Z.of_nat (List.length (get_um_version version)))
                (Z.of_nat n)); [lia |].
    destruct (PyString_finds_memory ext (Z.of_nat n)); step;
      [rewrite Nat2Z.id |]; reflexivity.
Qed.

(** ** Dimensions and byte order *)

(** X12. Neither [wgdos_pack_py] nor [sstpert_py] looks at the number of
    dimensions of its array: for a field with fewer than two dimensions, or a
    climatology with fewer than three, the first thing the call does is read
    past the end of the array's dimensions, before any allocation or library
    call. *)
Theorem number_of_dimensions_not_checked
    (ext : externals) (datain : PyArrayObject float) (mdi : float)
    (accuracy : Z) (factor : float) (dt : PyArrayObject Z)
    (fieldclim : PyArrayObject float) :
  ((List.length (PyArray_DIMS datain) < 2)%nat ->
   run_pack ext datain mdi accuracy = (Undefined, initial_world []))
  /\ ((List.length (PyArray_DIMS fieldclim) < 3)%nat ->
      run_sstpert ext factor dt fieldclim = (Undefined, initial_world [])).
Proof.
  split.
  - unfold run_pack, wgdos_pack_py.
    destruct (PyArray_DIMS datain) as [| rows [| cols rest]]; cbn;
      intros H; solve [reflexivity | lia].
  - unfold run_sstpert, sstpert_py.
    destruct (PyArray_DIMS fieldclim) as [| rows [| cols [| months rest]]];
      cbn; intros H; solve [reflexivity | lia].
Qed.

(** X13. Each call of [wgdos_unpack_py] and of [wgdos_pack_py] calls
    [pio_byteswap] at most once; on a big-endian host neither calls it at
    all, and [wgdos_unpack_py] returns with the caller's buffer exactly as it
    was passed, whatever the outcome. *)
Theorem byte_swap_calls
    (ext : externals) (bytes_in : list byte) (datain : PyArrayObject float)
    (mdi : float) (accuracy : Z) :
  (List.length (filter is_pio_byteswap
                  (trace (snd (run_unpack ext bytes_in mdi)))) <= 1)%nat
  /\ (List.length (filter is_pio_byteswap
                     (trace (snd (run_pack ext datain mdi accuracy)))) <= 1)%nat
  /\ (get_machine_endianism ext = bigEndian ->
      filter is_pio_byteswap (trace (snd (run_unpack ext bytes_in mdi))) = []
      /\ filter is_pio_byteswap
           (trace (snd (run_pack ext datain mdi accuracy))) = []
      /\ caller_bytes (snd (run_unpack ext bytes_in mdi)) = bytes_in).
Proof.
  split; [| split].
  - unfold run_unpack, wgdos_unpack_py. step.
    repeat (split_if; step; cbn [app]);
      cbn [filter is_pio_byteswap List.length]; lia.
  - unfold run_pack, wgdos_pack_py.
    destruct (PyArray_DIMS datain) as [| rows [| cols rest]]; step;
      try (cbn; lia).
    repeat (split_if; step; cbn [app]);
      cbn [filter is_pio_byteswap List.length]; lia.
  - intros Hbig. split; [| split].
    + unfold run_unpack, wgdos_unpack_py. step. rewrite Hbig.
      cbn [is_little]. step.
      repeat (split_if; step; cbn [app]); reflexivity.
    + unfold run_pack, wgdos_pack_py.
      destruct (PyArray_DIMS datain) as [| rows [| cols rest]]; step;
        try reflexivity.
      rewrite Hbig. cbn [is_little]. step.
      repeat (split_if; step; cbn [app]); reflexivity.
    + unfold run_unpack, wgdos_unpack_py. step. rewrite Hbig.
      cbn [is_little]. step.
      repeat (split_if; step); reflexivity.
Qed.

(** ** Errors *)

(** X14. The one error of [wgdos_unpack_py] and of [sstpert_py] that is not
    a [ValueError] set by the function is the interpreter's exception passed
    on when [PyArg_ParseTuple] refuses the arguments.  Once the arguments are
    parsed every error is a [ValueError], also when it is numpy that could
    not make the array: for [wgdos_unpack_py] one of four fixed messages, or
    the message [xpnd_all_wrapper] returned with a status other than 0; for
    [sstpert_py] one of four fixed messages. *)
Theorem errors_of_unpack_and_sstpert
    (ext : externals) (bytes_in : list byte) (unpack_args : option float)
    (sstpert_args : option (float * PyArrayObject Z * PyArrayObject float))
    (e : py_error) :
  (fst (wgdos_unpack_py_call ext unpack_args (initial_world bytes_in))
   = Raise e ->
     (unpack_args = None /\ e = PyExc_FromRuntime)
     \/ exists mdi,
          unpack_args = Some mdi
          /\ (e = PyExc_ValueError "Problem in byte-swapping"
              \/ e = PyExc_ValueError "Problem reading WGDOS header"
              \/ e = PyExc_ValueError "Unable to allocate memory for unpacking"
              \/ e = PyExc_ValueError "Failed to make numpy array"
              \/ exists dataout len_comp cols rows acc data st msg,
                   xpnd_all_wrapper ext dataout (normalized ext bytes_in)
                     len_comp cols rows acc mdi = (data, st, msg)
                   /\ st <> 0 /\ e = PyExc_ValueError msg))
  /\ (fst (sstpert_py_call ext sstpert_args (initial_world [])) = Raise e ->
      (sstpert_args = None /\ e = PyExc_FromRuntime)
      \/ (sstpert_args <> None
          /\ (e = PyExc_ValueError
                    "Climatology must have a final dimension of 12"
              \/ e = PyExc_ValueError "Date array must have 8 elements"
              \/ e = PyExc_ValueError "Unable to allocate memory for sstpert"
              \/ e = PyExc_ValueError "Failed to make numpy array"))).
Proof.
  split.
  - destruct unpack_args as [mdi |]; cbn [wgdos_unpack_py_call].
    2: { intros Hr. injection Hr as <-. left. split; reflexivity. }
    right. exists mdi. split; [reflexivity |]. revert H.
    unfold wgdos_unpack_py, normalized. step.
    repeat (split_if; step); intros Hr; try discriminate Hr;
      injection Hr as <-; auto 6.
    all: do 4 right; eexists _, _, _, _, _, _, _, _;
      split; [eassumption | split; [assumption | reflexivity]].
  - destruct sstpert_args as [[[factor dt] fieldclim] |];
      cbn [sstpert_py_call].
    2: { intros Hr. injection Hr as <-. left. split; reflexivity. }
    intros Hr. right. split; [discriminate |]. revert Hr.
    unfold sstpert_py.
    destruct (PyArray_DIMS fieldclim) as [| rows [| cols [| months rest]]];
      step; try discriminate.
    destruct (Z.eqb_spec months 12); cbn [negb]; step;
      [| intros Hr; injection Hr as <-; auto].
    destruct (PyArray_DIMS dt) as [| len_dt rest']; step; try discriminate.
    repeat (split_if; step); intros Hr; try discriminate Hr;
      injection Hr as <-; auto 6.
Qed.


